(** * pulumi-ecs-example: the declared ECS topology and its configuration contracts

    A shallow embedding of [pulumi/index.ts].  The program is a sequence of
    resource declarations; every [const] of the source is a definition of the
    same name here, and the values a resource receives are the literals of the
    source.  Outputs that only exist after deployment (the random suffix, ids,
    ARNs) are symbolic: the suffix is a parameter constrained by the arguments
    the program passes to the generator, ids and ARNs are references to the
    resource that produces them.

    Behaviour that the program delegates to the library or to the platform
    (the boot commands the library writes before those of the program, the
    cloud-config document and the shell that runs them, the container health
    monitor, the service scheduler, the scaling engine) is modelled only as
    far as a contract needs it, each in a module of its own that says what
    is assumed. *)

From Stdlib Require Import ZArith QArith Qround Lqa Ascii String List Lia Bool.
From stdpp Require Import base strings gmap list.
Import ListNotations.

Open Scope Z_scope.

(** ** Outputs of other resources *)

(** [r.attr] for a resource declared under the logical name [r]. *)
Record Output := mkOutput { out_resource : string; out_attr : string }.

#[global] Instance Output_eq_dec : EqDecision Output.
Proof. solve_decision. Defined.

(** ** Characters and strings *)

Module Chars.

Definition code (c : ascii) : N := N_of_ascii c.

(** [c] lies in the inclusive range [lo-hi] of character codes. *)
Definition in_range (lo hi c : ascii) : bool :=
  (code lo <=? code c)%N && (code c <=? code hi)%N.

Fixpoint mem (c : ascii) (s : string) : bool :=
  match s with
  | EmptyString => false
  | String d s' => Ascii.eqb c d || mem c s'
  end.

Fixpoint all (p : ascii -> bool) (s : string) : bool :=
  match s with
  | EmptyString => true
  | String c s' => p c && all p s'
  end.

End Chars.

(** ** The random provider ([@pulumi/random]) *)

Module random.

(** The arguments of [RandomString]; a field the program leaves out has the
    provider's default, [true] for each of the four character sets. *)
Record RandomStringArgs := {
  length : nat;
  lower : bool;
  upper : bool;
  number : bool;
  special : bool;
}.

Definition lower_chars : string := "abcdefghijklmnopqrstuvwxyz".
Definition upper_chars : string := "ABCDEFGHIJKLMNOPQRSTUVWXYZ".
Definition number_chars : string := "0123456789".
Definition special_chars : string := "!@#$%&*()-_=+[]{}<>:?".

(** The characters a result is drawn from: the enabled sets together. *)
Definition charset (a : RandomStringArgs) : string :=
  (if lower a then lower_chars else "") +:+
  (if upper a then upper_chars else "") +:+
  (if number a then number_chars else "") +:+
  (if special a then special_chars else "").

(** [s] is a possible [result] of [RandomString] with arguments [a]. *)
Definition is_result (a : RandomStringArgs) (s : string) : bool :=
  (String.length s =? length a)%nat && Chars.all (fun c => Chars.mem c (charset a)) s.

End random.

(** ** Anchored patterns of fixed shape *)

Module Pattern.

(** One position of a pattern: a literal character or a class given by
    ranges, as in [[a-z0-9]]. *)
Inductive atom :=
| Lit (c : ascii)
| Class (ranges : list (ascii * ascii)).

(** A pattern is a sequence of atoms, each repeated a fixed number of times
    ([x{n}]); it is matched against the whole string. *)
Definition t := list (atom * nat).

Definition atom_matches (a : atom) (c : ascii) : bool :=
  match a with
  | Lit d => Ascii.eqb c d
  | Class rs => existsb (fun r => Chars.in_range (fst r) (snd r) c) rs
  end.

Definition expand (p : t) : list atom :=
  flat_map (fun an => repeat (fst an) (snd an)) p.

Fixpoint matches_atoms (l : list atom) (s : string) : bool :=
  match l, s with
  | [], EmptyString => true
  | a :: l', String c s' => atom_matches a c && matches_atoms l' s'
  | _, _ => false
  end.

Definition matches (p : t) (s : string) : bool := matches_atoms (expand p) s.

Fixpoint literal (s : string) : t :=
  match s with
  | EmptyString => []
  | String c s' => (Lit c, 1%nat) :: literal s'
  end.

End Pattern.

(** ** The program: identifier generation *)

Definition clusterName : string := "dev-cluster".

(** The arguments of [new random.RandomString(clusterName, ...)]. *)
Definition clusterSuffixArgs : random.RandomStringArgs :=
  {| random.length := 6;
     random.lower := true;
     random.upper := false;
     random.number := true;
     random.special := false |}.

(** [.result.apply(s => `${clusterName}-` + s)], as a function of the result. *)
Definition clusterIdentifier (s : string) : string := (clusterName +:+ "-") +:+ s.

(** [dev-cluster-[a-z0-9]{6}] *)
Definition cluster_name_pattern : Pattern.t :=
  Pattern.literal "dev-cluster-" ++
  [(Pattern.Class [("a"%char, "z"%char); ("0"%char, "9"%char)], 6%nat)].

(** ** Addresses, CIDR blocks and security group rules *)

Module Net.

(** Decimal digits, most significant first; [None] on anything else. *)
Fixpoint parse_digits (s : string) (acc : Z) : option Z :=
  match s with
  | EmptyString => Some acc
  | String c s' =>
      if Chars.in_range "0" "9" c
      then parse_digits s' (10 * acc + (Z.of_N (Chars.code c) - 48))
      else None
  end.

Definition parse_decimal (s : string) : option Z :=
  match s with
  | EmptyString => None
  | _ => parse_digits s 0
  end.

(** The pieces of [s] between occurrences of [sep]. *)
Fixpoint split_on (sep : ascii) (s : string) : list string :=
  match s with
  | EmptyString => [EmptyString]
  | String c s' =>
      if Ascii.eqb c sep then EmptyString :: split_on sep s'
      else match split_on sep s' with
           | w :: ws => String c w :: ws
           | [] => [String c EmptyString]
           end
  end.

(** An IPv4 block: a 32-bit base address and a prefix length. *)
Record Cidr := { base : Z; prefix : Z }.

Definition octet (s : string) : option Z :=
  match parse_decimal s with
  | Some n => if n <=? 255 then Some n else None
  | None => None
  end.

(** ["a.b.c.d/len"] *)
Definition parse_cidr (s : string) : option Cidr :=
  match split_on "/" s with
  | [addr; len] =>
      match octet <$> split_on "." addr, parse_decimal len with
      | [Some a; Some b; Some c; Some d], Some l =>
          if l <=? 32
          then Some {| base := ((a * 256 + b) * 256 + c) * 256 + d; prefix := l |}
          else None
      | _, _ => None
      end
  | _ => None
  end.

(** The netmask of a prefix length: its top [len] bits of 32 are set. *)
Definition netmask (len : Z) : Z := Z.shiftl (Z.ones len) (32 - len).

Definition cidr_contains (b : Cidr) (addr : Z) : bool :=
  Z.land addr (netmask (prefix b)) =? Z.land (base b) (netmask (prefix b)).

Definition block_contains (block : string) (addr : Z) : bool :=
  match parse_cidr block with
  | Some b => cidr_contains b addr
  | None => false
  end.

Inductive Protocol := TCP | UDP | ICMP.

#[global] Instance Protocol_eq_dec : EqDecision Protocol.
Proof. solve_decision. Defined.

Definition protocol_name (p : Protocol) : string :=
  match p with TCP => "tcp" | UDP => "udp" | ICMP => "icmp" end.

(** A packet as a rule sees it: its protocol, the port it is addressed to
    and the peer address (the source for ingress, the destination for
    egress). *)
Record Packet := { proto : Protocol; port : Z; peer : Z }.

(** One entry of [ingress] or [egress], with the fields the program sets. *)
Record Rule := {
  fromPort : Z;
  toPort : Z;
  protocol : string;
  cidrBlocks : list string;
}.

(** A rule whose protocol is ["-1"] covers every protocol and every port;
    otherwise it covers its own protocol on the ports [fromPort..toPort]. *)
Definition rule_allows (r : Rule) (p : Packet) : bool :=
  (String.eqb (protocol r) "-1"
   || (String.eqb (protocol r) (protocol_name (proto p))
       && (fromPort r <=? port p) && (port p <=? toPort r)))
  && existsb (fun b => block_contains b (peer p)) (cidrBlocks r).

(** Traffic is refused unless some rule allows it. *)
Definition allows (rules : list Rule) (p : Packet) : bool :=
  existsb (fun r => rule_allows r p) rules.

End Net.

(** ** The program: security groups *)

Record SecurityGroup := {
  sg_name : string;
  sg_description : string;
  ingress : list Net.Rule;
  egress : list Net.Rule;
}.

Definition sg_id (g : SecurityGroup) : Output := mkOutput (sg_name g) "id".

Definition instancesSecurityGroup : SecurityGroup :=
  {| sg_name := "dev-instances-sg";
     sg_description :=
       "The Security group for all instances that only allow ingress of the Load Balancer.";
     ingress := [ {| Net.fromPort := 80; Net.toPort := 80; Net.protocol := "tcp";
                     Net.cidrBlocks := ["0.0.0.0/0"%string] |} ];
     egress := [ {| Net.fromPort := 0; Net.toPort := 65535; Net.protocol := "tcp";
                    Net.cidrBlocks := ["0.0.0.0/0"%string] |} ] |}.

(** ** The shell that runs boot commands and health probes

    Only what the two command lines of the program use: words separated by
    blanks, single quotes, the [||] list, the [>>] redirection and the
    builtins [echo] and [exit].  Operators are recognised as whole words.
    Any other command is external: its exit status is given by [exec]. *)

Module Shell.

(** The files of a host, each as its lines. *)
Abbreviation files := (gmap string (list string)).

Definition push (cur : option string) (c : ascii) : option string :=
  Some (default EmptyString cur +:+ String c EmptyString).

Definition flush (cur : option string) : list string :=
  match cur with Some w => [w] | None => [] end.

(** Word splitting with quote removal.  [inq]: inside single quotes;
    [cur]: the word read so far, if one has started. *)
Fixpoint words (inq : bool) (cur : option string) (s : string) : list string :=
  match s with
  | EmptyString => flush cur
  | String c s' =>
      if Ascii.eqb c "'" then words (negb inq) (Some (default EmptyString cur)) s'
      else if inq then words true (push cur c) s'
      else if Ascii.eqb c " " then flush cur ++ words false None s'
      else words false (push cur c) s'
  end.

(** The commands of an or-list, split at [||]. *)
Fixpoint split_or (ws : list string) : list (list string) :=
  match ws with
  | [] => [[]]
  | w :: ws' =>
      if String.eqb w "||" then [] :: split_or ws'
      else match split_or ws' with
           | c :: cs => (w :: c) :: cs
           | [] => [[w]]
           end
  end.

(** The words of a command without its [>> path], and the path. *)
Fixpoint redirect (ws : list string) : list string * option string :=
  match ws with
  | [] => ([], None)
  | w :: ws' =>
      if String.eqb w ">>" then
        match ws' with
        | p :: rest => (rest, Some p)
        | [] => ([], None)
        end
      else let '(args, r) := redirect ws' in (w :: args, r)
  end.

Fixpoint join (ws : list string) : string :=
  match ws with
  | [] => EmptyString
  | [w] => w
  | w :: ws' => w +:+ " " +:+ join ws'
  end.

Definition append_line (path line : string) (fs : files) : files :=
  <[path := default [] (fs !! path) ++ [line]]> fs.

(** A command either leaves a status or ends the shell with one. *)
Inductive outcome := Status (n : Z) | Exit (n : Z).

Definition run_simple (exec : list string -> Z) (ws : list string) (fs : files)
  : option (outcome * files) :=
  let '(args, out) := redirect ws in
  match args with
  | [] => None
  | prog :: rest =>
      if String.eqb prog "exit" then
        match rest with
        | [] => Some (Exit 0, fs)
        | [n] => (fun k => (Exit k, fs)) <$> Net.parse_decimal n
        | _ => None
        end
      else if String.eqb prog "echo" then
        Some (Status 0,
              match out with
              | Some p => append_line p (join rest) fs
              | None => fs
              end)
      else match out with
           | None => Some (Status (exec args), fs)
           | Some _ => None
           end
  end.

(** [c1 || c2 || ...]: the next command runs only when the one before it
    failed; the status is that of the last command run. *)
Fixpoint run_or (exec : list string -> Z) (alts : list (list string)) (fs : files)
  : option (Z * files) :=
  match alts with
  | [] => None
  | c :: rest =>
      match run_simple exec c fs with
      | None => None
      | Some (Exit n, fs') => Some (n, fs')
      | Some (Status n, fs') =>
          match rest with
          | [] => Some (n, fs')
          | _ => if n =? 0 then Some (n, fs') else run_or exec rest fs'
          end
      end
  end.

(** [sh -c line] *)
Definition sh (exec : list string -> Z) (line : string) (fs : files) : option (Z * files) :=
  run_or exec (split_or (words false None line)) fs.

End Shell.

(** ** The boot commands of an instance

    The user data of an instance is a cloud-config document.  The items of
    its [bootcmd] list are read as plain scalars of one line each, and the
    commands they give run in the order of the list, each in a shell. *)

Module CloudInit.

Definition starts_with (c : ascii) (s : string) : bool :=
  match s with
  | String d _ => Ascii.eqb d c
  | EmptyString => false
  end.

(** The characters that mean nothing special inside a plain scalar. *)
Definition plain_char (c : ascii) : bool :=
  negb (Chars.code c <? 32)%N && negb (Ascii.eqb c ":") && negb (Ascii.eqb c "#").

(** The text of a plain scalar.  A [#] after a blank starts a comment, which
    is left out; a [:] before a blank or at the end makes the item a mapping,
    which is no command; control characters (line breaks, tabs) are not
    read. *)
Fixpoint plain_scalar (s : string) : option string :=
  match s with
  | EmptyString => Some EmptyString
  | String c s' =>
      if (Chars.code c <? 32)%N then None
      else if Ascii.eqb c ":" && (starts_with " " s' || String.eqb s' EmptyString) then None
      else if Ascii.eqb c " " && starts_with "#" s' then Some EmptyString
      else String c <$> plain_scalar s'
  end.

(** A plain scalar that starts with a letter; one that starts with anything
    else (a quote, a flow or block indicator, a digit) is not read. *)
Definition starts_with_letter (s : string) : bool :=
  match s with
  | String c _ => Chars.in_range "a" "z" c || Chars.in_range "A" "Z" c
  | EmptyString => false
  end.

(** The plain scalars that are read as a boolean or as null, not as text. *)
Definition reserved (s : string) : bool :=
  existsb (String.eqb s)
    [ "y"; "Y"; "yes"; "Yes"; "YES"; "n"; "N"; "no"; "No"; "NO";
      "true"; "True"; "TRUE"; "false"; "False"; "FALSE";
      "on"; "On"; "ON"; "off"; "Off"; "OFF"; "null"; "Null"; "NULL" ]%string.

(** The command of an item of the [bootcmd] list as it stands in the
    document: the list marker, a blank and a plain scalar that is text. *)
Definition entry (contents : string) : option string :=
  match contents with
  | String "-" (String " " item) =>
      if starts_with_letter item then
        match plain_scalar item with
        | Some text => if reserved text then None else Some text
        | None => None
        end
      else None
  | _ => None
  end.

(** The entries run in order, each in a shell, on the files of the host; a
    command that fails does not stop the ones after it. *)
Fixpoint bootcmd (exec : list string -> Z) (lines : list string) (fs : Shell.files)
  : option Shell.files :=
  match lines with
  | [] => Some fs
  | l :: ls =>
      match entry l with
      | None => None
      | Some cmd =>
          match Shell.sh exec cmd fs with
          | None => None
          | Some (_, fs') => bootcmd exec ls fs'
          end
      end
  end.

End CloudInit.

(** ** The program: boot-time user data and the scaling group *)

Record UserDataLine := { contents : string }.

(** [awsx.autoscaling.AutoScalingUserData], with the one member the program
    gives; the lines depend on the cluster identifier. *)
Record AutoScalingUserData := {
  extraBootcmdLines : string -> list UserDataLine;
}.

Definition userData : AutoScalingUserData :=
  {| extraBootcmdLines := fun clusterId =>
       [ {| contents := "- echo ECS_CLUSTER='" +:+ clusterId +:+ "' >> /etc/ecs/ecs.config" |};
         {| contents := "- echo ECS_ENABLE_CONTAINER_METADATA=true >> /etc/ecs/ecs.config" |};
         {| contents := "- echo ECS_RESERVED_MEMORY=256 >> /etc/ecs/ecs.config" |} ] |}.

Record TemplateParameters := { minSize : Z; maxSize : Z }.

Record LaunchConfigurationArgs := {
  instanceType : string;
  lc_securityGroups : list Output;
  lc_userData : AutoScalingUserData;
}.

Record AutoScalingGroup := {
  asg_name : string;
  templateParameters : TemplateParameters;
  launchConfigurationArgs : LaunchConfigurationArgs;
}.

Definition asg : AutoScalingGroup :=
  {| asg_name := "dev-asg";
     templateParameters := {| minSize := 1; maxSize := 2 |};
     launchConfigurationArgs :=
       {| instanceType := "t2.micro";
          lc_securityGroups := [sg_id instancesSecurityGroup];
          lc_userData := userData |} |}.

(** [asg.group.arn] *)
Definition asg_group_arn (g : AutoScalingGroup) : Output := mkOutput (asg_name g) "group.arn".

(** ** The user data the library writes ([awsx.autoscaling])

    For user data given as [AutoScalingUserData] the library writes a
    cloud-config document whose [bootcmd] list holds three items of its own,
    the last of which appends a line to the configuration file of the agent,
    and after them the extra lines of the program. *)

Module awsx.

Definition bootcmd : list string :=
  [ "- mkswap /dev/xvdb";
    "- swapon /dev/xvdb";
    "- echo ECS_ENGINE_AUTH_TYPE=docker >> /etc/ecs/ecs.config" ]%string.

(** The [bootcmd] list of the instances of a launch configuration. *)
Definition instanceBootcmd (lc : LaunchConfigurationArgs) (clusterId : string) : list string :=
  bootcmd ++ (contents <$> extraBootcmdLines (lc_userData lc) clusterId).

End awsx.

(** ** The program: capacity provider and cluster *)

Record CapacityProvider := {
  cp_name : string;
  autoScalingGroupArn : Output;
}.

Definition capacityProvider : CapacityProvider :=
  {| cp_name := "dev-capacity"; autoScalingGroupArn := asg_group_arn asg |}.

(** [capacityProvider.name] *)
Definition capacityProvider_name (p : CapacityProvider) : Output := mkOutput (cp_name p) "name".

Record Cluster := {
  cluster_resource : string;
  name : string;
  capacityProviders : list Output;
  cluster_securityGroups : list string;
}.

(** [awsx.ecs.Cluster.createDefaultSecurityGroup(clusterName, vpc)]: only its
    logical name is known to the program. *)
Definition clusterSecurityGroup : string := clusterName.

(** The cluster is named by the identifier, so it depends on the suffix. *)
Definition cluster (suffix : string) : Cluster :=
  {| cluster_resource := clusterName;
     name := clusterIdentifier suffix;
     capacityProviders := [capacityProvider_name capacityProvider];
     cluster_securityGroups := [clusterSecurityGroup] |}.

(** ** The program: the scaling policy *)

(** [awsx.ecs.metrics] *)
Module metrics.

Record Metric := {
  metric_name : string;
  metric_cluster : Cluster;
  statistic : string;
  unit : string;
}.

(** [memoryReservation({ cluster, statistic, unit })] *)
Definition memoryReservation (c : Cluster) (stat u : string) : Metric :=
  {| metric_name := "MemoryReservation"; metric_cluster := c; statistic := stat; unit := u |}.

End metrics.

(** One call of [scaleToTrackMetric] on a scaling group. *)
Record TargetTrackingPolicy := {
  policy_group : string;
  policy_name : string;
  metric : metrics.Metric;
  targetValue : Z;
}.

Definition scaleToTrackMetric (g : AutoScalingGroup) (n : string) (m : metrics.Metric) (target : Z)
  : TargetTrackingPolicy :=
  {| policy_group := asg_name g; policy_name := n; metric := m; targetValue := target |}.

(** The calls of [scaleToTrackMetric] the program makes, in order. *)
Definition scalingPolicies (suffix : string) : list TargetTrackingPolicy :=
  [ scaleToTrackMetric asg "scale-memory-reserv"
      (metrics.memoryReservation (cluster suffix) "Average" "Percent") 80 ].

(** The policies attached to a scaling group. *)
Definition policiesOf (g : AutoScalingGroup) (ps : list TargetTrackingPolicy)
  : list TargetTrackingPolicy :=
  filter (fun p => policy_group p = asg_name g) ps.

(** ** The program: task definition and service *)

Record PortMapping := { hostPort : Z; containerPort : Z }.

Record HealthCheck := {
  command : list string;
  interval : Z;
  startPeriod : Z;
  retries : Z;
  timeout : Z;
}.

Record Container := {
  image_context : string;
  portMappings : list PortMapping;
  memoryReservation : Z;
  memory : Z;
  healthCheck : HealthCheck;
}.

Record EC2TaskDefinition := {
  td_name : string;
  networkMode : string;
  containers : gmap string Container;
}.

Definition nginx : Container :=
  {| image_context := "../";
     portMappings := [ {| hostPort := 80; containerPort := 80 |} ];
     memoryReservation := 256;
     memory := 256;
     healthCheck :=
       {| command := ["CMD-SHELL"; "curl --fail http://localhost || exit 1"]%string;
          interval := 30;
          startPeriod := 5;
          retries := 3;
          timeout := 5 |} |}.

Definition taskDefinition : EC2TaskDefinition :=
  {| td_name := "nginx-task-def";
     networkMode := "host";
     containers := {[ "nginx"%string := nginx ]} |}.

Record CapacityProviderStrategy := {
  cps_capacityProvider : Output;
  base : Z;
  weight : Z;
}.

Record PlacementStrategy := { ps_type : string; field : string }.

Record CapacityProviderService := {
  svc_name : string;
  svc_cluster : Cluster;
  svc_taskDefinition : EC2TaskDefinition;
  capacityProviderStrategies : list CapacityProviderStrategy;
  orderedPlacementStrategies : list PlacementStrategy;
  desiredCount : Z;
  deploymentMinimumHealthyPercent : Z;
  deploymentMaximumPercent : Z;
}.

Definition service (suffix : string) : CapacityProviderService :=
  {| svc_name := "nginx-svc";
     svc_cluster := cluster suffix;
     svc_taskDefinition := taskDefinition;
     capacityProviderStrategies :=
       [ {| cps_capacityProvider := capacityProvider_name capacityProvider;
            base := 1; weight := 1 |} ];
     orderedPlacementStrategies := [ {| ps_type := "spread"; field := "instanceId" |} ];
     desiredCount := 1;
     deploymentMinimumHealthyPercent := 0;
     deploymentMaximumPercent := 100 |}.

(** ** The container health monitor

    The runtime probes a container with the command of its health check and
    keeps a status.  A probe starts [interval] seconds after the previous one
    ended (the first one [interval] seconds after the container started), is
    stopped after [timeout] seconds, and fails when it was stopped or left a
    status other than 0.  A failure while the container is still starting and
    within [startPeriod] seconds of its start is not counted; [retries]
    failures in a row make the container unhealthy; a success makes it
    healthy and clears the count. *)

Module Health.

(** The status a probe leaves: [CMD-SHELL line] runs the line in a shell,
    [CMD prog args] runs the program itself. *)
Definition probe_status (exec : list string -> Z) (cmd : list string) : option Z :=
  match cmd with
  | kind :: rest =>
      if String.eqb kind "CMD-SHELL" then
        match rest with
        | [line] => fst <$> Shell.sh exec line ∅
        | _ => None
        end
      else if String.eqb kind "CMD" then Some (exec rest)
      else None
  | [] => None
  end.

Inductive status := Starting | Healthy | Unhealthy.

#[global] Instance status_eq_dec : EqDecision status.
Proof. solve_decision. Defined.

Record monitor := {
  state : status;
  streak : Z;     (* failures in a row *)
  clock : Z;      (* seconds since the container started *)
}.

(** One probe as the monitor sees it: how long the command ran (or would
    have run, had it not been stopped) and the status it left. *)
Record probe := { duration : N; exit_status : Z }.

Definition init : monitor := {| state := Starting; streak := 0; clock := 0 |}.

Definition failed (hc : HealthCheck) (p : probe) : bool :=
  (timeout hc <? Z.of_N (duration p)) || negb (exit_status p =? 0).

Definition step (hc : HealthCheck) (m : monitor) (p : probe) : monitor :=
  let ended := clock m + interval hc + Z.min (Z.of_N (duration p)) (timeout hc) in
  if failed hc p then
    if bool_decide (state m = Starting) && (ended <=? startPeriod hc)
    then {| state := Starting; streak := streak m; clock := ended |}
    else
      let k := streak m + 1 in
      {| state := if retries hc <=? k then Unhealthy else state m;
         streak := k;
         clock := ended |}
  else {| state := Healthy; streak := 0; clock := ended |}.

Definition run (hc : HealthCheck) (ps : list probe) : monitor :=
  fold_left (step hc) ps init.

(** The number of failed probes at the head of a list. *)
Fixpoint leading_failures (hc : HealthCheck) (ps : list probe) : nat :=
  match ps with
  | [] => 0
  | p :: ps' => if failed hc p then S (leading_failures hc ps') else 0
  end.

(** The number of failed probes since the last success. *)
Definition trailing_failures (hc : HealthCheck) (ps : list probe) : nat :=
  leading_failures hc (rev ps).

End Health.

(** ** The service scheduler during a rollout

    The scheduler keeps the number of tasks of a service between a lower
    limit, [deploymentMinimumHealthyPercent] of the desired count rounded up,
    and an upper limit, [deploymentMaximumPercent] of it rounded down: it
    starts a task only while fewer tasks than the upper limit exist, and
    stops one only if the lower limit still holds afterwards. *)

Module Scheduler.

Record task := { host : nat; revision : nat }.

Definition upper_limit (s : CapacityProviderService) : Z :=
  desiredCount s * deploymentMaximumPercent s / 100.

Definition lower_limit (s : CapacityProviderService) : Z :=
  (desiredCount s * deploymentMinimumHealthyPercent s + 99) / 100.

Definition tasks_on (h : nat) (ts : list task) : list task :=
  filter (fun t => host t = h) ts.

Inductive step (s : CapacityProviderService) (fleet : list nat)
  : list task -> list task -> Prop :=
| step_start t ts :
    Z.of_nat (length ts) < upper_limit s ->
    host t ∈ fleet ->
    step s fleet ts (t :: ts)
| step_stop ts1 t ts2 :
    lower_limit s <= Z.of_nat (length (ts1 ++ ts2)) ->
    step s fleet (ts1 ++ t :: ts2) (ts1 ++ ts2).

(** The states of a service that starts with no task. *)
Definition reachable (s : CapacityProviderService) (fleet : list nat) (ts : list task) : Prop :=
  rtc (step s fleet) [] ts.

End Scheduler.

(** ** The scaling engine

    A scaling policy looks at a metric value and the current size and asks
    for a capacity; the group takes the request cut to its bounds.  A group
    starts at its minimum size (the program sets no desired capacity). *)

Module AutoScaling.

Definition clamp (g : AutoScalingGroup) (n : Z) : Z :=
  Z.max (minSize (templateParameters g)) (Z.min (maxSize (templateParameters g)) n).

Definition in_bounds (g : AutoScalingGroup) (n : Z) : bool :=
  (minSize (templateParameters g) <=? n) && (n <=? maxSize (templateParameters g)).

Definition initial (g : AutoScalingGroup) : Z := minSize (templateParameters g).

Section Engine.

(** What a policy requests, from the metric value and the current size. *)
Variable policy : Q -> Z -> Z.

Definition scale (g : AutoScalingGroup) (size : Z) (m : Q) : Z :=
  clamp g (policy m size).

Definition run (g : AutoScalingGroup) (size : Z) (ms : list Q) : Z :=
  fold_left (scale g) ms size.

End Engine.

(** Target tracking asks for the capacity that would bring the metric to
    the target: the current size in the proportion of the metric to the
    target, rounded up. *)
Definition target_tracking (target : Z) (m : Q) (size : Z) : Z :=
  Qceiling (inject_Z size * m / inject_Z target).

End AutoScaling.

(** ** Reboots and the agent configuration file

    The boot commands run at every boot of an instance, each time on the
    files the previous boot left.  The agent reads its configuration file as
    lines [KEY=VALUE]. *)

(** The configuration file of the agent. *)
Abbreviation ecs_config := "/etc/ecs/ecs.config"%string.

Module Boot.


(** The characters of a name that neither the document nor the shell
    reads as anything but themselves between single quotes: printable
    characters other than the quote, [#], [:] and the backslash. *)
Definition safe_char (c : ascii) : bool :=
  (32 <=? Chars.code c)%N && (Chars.code c <=? 126)%N && negb (Chars.mem c "'#:\").



(** The lines of a file; a file that does not exist has none. *)
Definition read (path : string) (fs : Shell.files) : list string :=
  default [] (fs !! path).

End Boot.

(** ** The image of the container ([Dockerfile]) *)

Module Docker.

Inductive instruction :=
| FROM (image : string)
| RUN (command : string)
| CMD (argv : list string).

Definition is_option (w : string) : bool :=
  match w with
  | String c _ => Ascii.eqb c "-"
  | EmptyString => false
  end.

(** The packages of [apk [options] add [options] package ...]. *)
Definition apk_add (ws : list string) : list string :=
  match ws with
  | prog :: rest =>
      if String.eqb prog "apk" then
        match List.filter (fun w => negb (is_option w)) rest with
        | sub :: pkgs => if String.eqb sub "add" then pkgs else []
        | [] => []
        end
      else []
  | [] => []
  end.

(** The packages the build adds to the base image. *)
Definition added_packages (f : list instruction) : list string :=
  flat_map (fun i => match i with
                     | RUN c => apk_add (Shell.words false None c)
                     | _ => []
                     end) f.

End Docker.

(** The [Dockerfile] in the build context of the [nginx] container. *)
Definition Dockerfile : list Docker.instruction :=
  [ Docker.FROM "nginx:alpine";
    Docker.RUN "apk --no-cache add curl";
    Docker.CMD ["nginx"; "-g"; "daemon off;"]%string ].

(** * Properties *)

(** ** Strings and patterns *)

Lemma all_impl (p q : ascii -> bool) (s : string) :
  (forall c, p c = true -> q c = true) ->
  Chars.all p s = true -> Chars.all q s = true.
Proof.
  intros Hpq. induction s as [|c s IH]; simpl; [done|].
  intros [Hc Hs]%andb_prop. rewrite (Hpq c Hc). simpl. by apply IH.
Qed.

(** A literal prefix of a pattern consumes exactly that prefix. *)
Lemma matches_literal_app (lit : string) (l : list Pattern.atom) (s : string) :
  Pattern.matches_atoms (Pattern.expand (Pattern.literal lit) ++ l) (lit +:+ s)
  = Pattern.matches_atoms l s.
Proof.
  induction lit as [|c lit IH]; simpl; [done|].
  rewrite Ascii.eqb_refl. simpl. exact IH.
Qed.

(** [x{n}] matches the strings of [n] characters that all match [x]. *)
Lemma matches_repeat (a : Pattern.atom) (s : string) :
  Pattern.matches_atoms (repeat a (String.length s)) s = Chars.all (Pattern.atom_matches a) s.
Proof.
  induction s as [|c s IH]; simpl; [done|]. by rewrite IH.
Qed.

Lemma expand_app (p q : Pattern.t) :
  Pattern.expand (p ++ q) = Pattern.expand p ++ Pattern.expand q.
Proof. unfold Pattern.expand. apply flat_map_app. Qed.

(** Case analysis on membership in a string given by its characters. *)
Ltac mem_cases H :=
  repeat (apply orb_prop in H; destruct H as [H|H];
          [apply Ascii.eqb_eq in H; subst; reflexivity|]);
  discriminate H.

(** The characters the generator draws from are lowercase letters and digits. *)
Lemma charset_lower_alnum (c : ascii) :
  Chars.mem c (random.charset clusterSuffixArgs) = true ->
  Pattern.atom_matches (Pattern.Class [("a"%char, "z"%char); ("0"%char, "9"%char)]) c = true.
Proof. intros H. cbn in H. mem_cases H. Qed.

Lemma is_result_inv (a : random.RandomStringArgs) (s : string) :
  random.is_result a s = true ->
  String.length s = random.length a /\
  Chars.all (fun c => Chars.mem c (random.charset a)) s = true.
Proof.
  unfold random.is_result. intros [Hl Hc]%andb_prop.
  split; [by apply Nat.eqb_eq|done].
Qed.

(** C2: for every suffix the generator can produce under the arguments of the
    program (six characters, no uppercase, no special characters), the cluster
    name is the base name ['dev-cluster'], a hyphen and the suffix, and it
    matches [dev-cluster-[a-z0-9]{6}]. *)
Theorem clusterIdentifier_matches_pattern (s : string) :
  random.is_result clusterSuffixArgs s = true ->
  clusterIdentifier s = "dev-cluster" +:+ "-" +:+ s /\
  Pattern.matches cluster_name_pattern (clusterIdentifier s) = true.
Proof.
  intros [Hlen Hchars]%is_result_inv. split; [reflexivity|].
  unfold Pattern.matches, cluster_name_pattern.
  rewrite expand_app.
  change (clusterIdentifier s) with ("dev-cluster-" +:+ s).
  rewrite matches_literal_app.
  change (Pattern.expand [(?a, 6%nat)]) with (repeat a 6 ++ []).
  rewrite app_nil_r.
  change 6%nat with (random.length clusterSuffixArgs). rewrite <- Hlen.
  rewrite matches_repeat.
  eapply all_impl; [|exact Hchars]. exact charset_lower_alnum.
Qed.

Lemma clusterIdentifier_matches_pattern_witness :
  random.is_result clusterSuffixArgs "x7k2qa" = true /\
  clusterIdentifier "x7k2qa" = "dev-cluster-x7k2qa" /\
  Pattern.matches cluster_name_pattern "dev-cluster-x7k2qa" = true.
Proof.
  split; [reflexivity|].
  apply (clusterIdentifier_matches_pattern "x7k2qa"). reflexivity.
Defined.

(** ** Security groups *)

Lemma parse_any_block : Net.parse_cidr "0.0.0.0/0" = Some {| Net.base := 0; Net.prefix := 0 |}.
Proof. reflexivity. Qed.

(** [0.0.0.0/0] contains every address. *)
Lemma any_address (a : Z) : Net.block_contains "0.0.0.0/0" a = true.
Proof.
  unfold Net.block_contains. rewrite parse_any_block.
  unfold Net.cidr_contains, Net.netmask. simpl.
  rewrite Z.land_0_r. reflexivity.
Qed.

(** What a single TCP rule open to [0.0.0.0/0] lets through. *)
Lemma tcp_rule_allows (lo hi : Z) (p : Net.Packet) :
  Net.rule_allows {| Net.fromPort := lo; Net.toPort := hi; Net.protocol := "tcp";
                     Net.cidrBlocks := ["0.0.0.0/0"%string] |} p = true
  <-> Net.proto p = Net.TCP /\ lo <= Net.port p <= hi.
Proof.
  unfold Net.rule_allows. cbn [Net.fromPort Net.toPort Net.protocol Net.cidrBlocks existsb].
  rewrite any_address. cbn [orb andb].
  change (String.eqb "tcp" "-1") with false. cbn [orb].
  destruct p as [[] port peer]; cbn [Net.proto Net.port Net.protocol_name].
  - change (String.eqb "tcp" "tcp") with true. cbn [andb].
    rewrite andb_true_r, andb_true_iff, !Z.leb_le. intuition.
  - change (String.eqb "tcp" "udp") with false. cbn [andb].
    split; [discriminate | intros [? _]; discriminate].
  - change (String.eqb "tcp" "icmp") with false. cbn [andb].
    split; [discriminate | intros [? _]; discriminate].
Qed.

(** The block test is the usual one: 10.1.2.3 is in [10.0.0.0/8], 11.0.0.0
    is not, and a malformed block contains nothing. *)
Example block_contains_examples :
  Net.block_contains "10.0.0.0/8" 167838211 = true /\
  Net.block_contains "10.0.0.0/8" 184549376 = false /\
  Net.block_contains "10.0.0/8" 167838211 = false.
Proof. repeat split; reflexivity. Qed.

Lemma allows_single (r : Net.Rule) (p : Net.Packet) :
  Net.allows [r] p = Net.rule_allows r p.
Proof. unfold Net.allows. simpl. apply orb_false_r. Qed.

(** C3: the one security group of every worker instance has exactly one
    ingress rule, TCP from port 80 to port 80 from [0.0.0.0/0]; the traffic it
    lets in is TCP to port 80, from any address, and nothing else. *)
Theorem instances_ingress_port_80_only :
  lc_securityGroups (launchConfigurationArgs asg) = [sg_id instancesSecurityGroup] /\
  ingress instancesSecurityGroup =
    [ {| Net.fromPort := 80; Net.toPort := 80; Net.protocol := "tcp";
         Net.cidrBlocks := ["0.0.0.0/0"%string] |} ] /\
  forall p : Net.Packet,
    Net.allows (ingress instancesSecurityGroup) p = true
    <-> Net.proto p = Net.TCP /\ Net.port p = 80.
Proof.
  split; [reflexivity|]. split; [reflexivity|].
  intros p. cbn [ingress instancesSecurityGroup].
  rewrite allows_single, tcp_rule_allows. intuition lia.
Qed.

(** C4, as the claim states it, fails: a DNS query over UDP to 8.8.8.8 is not
    allowed out. *)
Lemma egress_refuses_udp :
  Net.allows (egress instancesSecurityGroup)
    {| Net.proto := Net.UDP; Net.port := 53; Net.peer := 134744072 |} = false.
Proof. vm_compute. reflexivity. Qed.

(** C4, amended: the egress rule of the instance security group allows TCP
    on every port (0 to 65535) to any destination address, and no other
    protocol. *)
Theorem instances_egress_all_tcp :
  egress instancesSecurityGroup =
    [ {| Net.fromPort := 0; Net.toPort := 65535; Net.protocol := "tcp";
         Net.cidrBlocks := ["0.0.0.0/0"%string] |} ] /\
  forall p : Net.Packet,
    Net.allows (egress instancesSecurityGroup) p = true
    <-> Net.proto p = Net.TCP /\ 0 <= Net.port p <= 65535.
Proof.
  split; [reflexivity|].
  intros p. cbn [egress instancesSecurityGroup].
  rewrite allows_single. apply tcp_rule_allows.
Qed.

(** ** The scaling group *)

Lemma clamp_asg_bounds (n : Z) : 1 <= AutoScaling.clamp asg n <= 2.
Proof. unfold AutoScaling.clamp. cbn [asg templateParameters minSize maxSize]. lia. Qed.

Lemma run_asg_bounds (policy : Q -> Z -> Z) (ms : list Q) (size : Z) :
  1 <= size <= 2 -> 1 <= AutoScaling.run policy asg size ms <= 2.
Proof.
  revert size. induction ms as [|m ms IH]; intros size Hsize; simpl; [done|].
  apply IH. apply clamp_asg_bounds.
Qed.

(** C5: the scaling group is declared with [minSize = 1] and [maxSize = 2],
    and whatever a scaling policy requests, on whatever metric values, the
    size of the group stays in the range 1 to 2. *)
Theorem asg_size_in_range :
  minSize (templateParameters asg) = 1 /\
  maxSize (templateParameters asg) = 2 /\
  (forall (policy : Q -> Z -> Z) (size : Z) (m : Q),
      1 <= AutoScaling.scale policy asg size m <= 2) /\
  (forall (policy : Q -> Z -> Z) (ms : list Q),
      1 <= AutoScaling.run policy asg (AutoScaling.initial asg) ms <= 2).
Proof.
  split; [reflexivity|]. split; [reflexivity|]. split.
  - intros policy size m. apply clamp_asg_bounds.
  - intros policy ms. apply run_asg_bounds. cbn. lia.
Qed.

(** ** The task definition *)

(** C6: the task definition has a single container, and both its soft memory
    reservation and its hard memory limit are 256 MiB. *)
Theorem task_memory_256 :
  size (containers taskDefinition) = 1%nat /\
  containers taskDefinition !! "nginx"%string = Some nginx /\
  forall (n : string) (c : Container),
    containers taskDefinition !! n = Some c ->
    n = "nginx"%string /\ memoryReservation c = 256 /\ memory c = 256.
Proof.
  cbn [containers taskDefinition]. split; [|split].
  - apply map_size_singleton.
  - apply lookup_singleton_eq.
  - intros n c [-> <-]%lookup_singleton_Some. by repeat split.
Qed.

(** ** The health check *)

(** The probe of the program: [curl], and status 1 whenever it fails. *)
Lemma sh_curl_or_exit (exec : list string -> Z) (fs : Shell.files) :
  Shell.sh exec "curl --fail http://localhost || exit 1" fs
  = if exec ["curl"; "--fail"; "http://localhost"]%string =? 0
    then Some (exec ["curl"; "--fail"; "http://localhost"]%string, fs)
    else Some (1, fs).
Proof. reflexivity. Qed.

Lemma run_snoc (hc : HealthCheck) (ps : list Health.probe) (p : Health.probe) :
  Health.run hc (ps ++ [p]) = Health.step hc (Health.run hc ps) p.
Proof. unfold Health.run. by rewrite fold_left_app. Qed.

Lemma trailing_snoc (hc : HealthCheck) (ps : list Health.probe) (p : Health.probe) :
  Health.trailing_failures hc (ps ++ [p])
  = if Health.failed hc p then S (Health.trailing_failures hc ps) else 0%nat.
Proof. unfold Health.trailing_failures. rewrite rev_unit. reflexivity. Qed.

(** With the numbers of the program no probe ends within the start period, so
    every failure counts: the monitor's count is the number of failures since
    the last success, and the container is unhealthy from three on. *)
Lemma nginx_monitor_invariant (ps : list Health.probe) :
  let m := Health.run (healthCheck nginx) ps in
  0 <= Health.clock m /\
  Health.streak m = Z.of_nat (Health.trailing_failures (healthCheck nginx) ps) /\
  (Health.state m = Health.Unhealthy <-> 3 <= Health.streak m).
Proof.
  induction ps as [|p ps IH] using rev_ind.
  - cbn. repeat split; try lia; discriminate.
  - cbv zeta in *. rewrite run_snoc, trailing_snoc.
    destruct IH as (Hclock & Hstreak & Hstate).
    set (hc := healthCheck nginx) in *.
    set (m := Health.run hc ps) in *.
    unfold Health.step.
    change (interval hc) with 30. change (startPeriod hc) with 5.
    change (retries hc) with 3. change (timeout hc) with 5.
    destruct (Health.failed hc p).
    + assert (Hlate : (Health.clock m + 30 + Z.min (Z.of_N (Health.duration p)) 5 <=? 5) = false)
        by (apply Z.leb_gt; lia).
      rewrite Hlate, andb_false_r. cbn [Health.clock Health.streak Health.state].
      split; [lia|]. split; [lia|].
      destruct (3 <=? Health.streak m + 1) eqn:Hk.
      * apply Z.leb_le in Hk. by split.
      * apply Z.leb_gt in Hk. rewrite Hstate. lia.
    + cbn [Health.clock Health.streak Health.state].
      split; [lia|]. split; [lia|]. split; [discriminate | lia].
Qed.

(** Two failures, a success and two more failures leave the container
    healthy; a third failure in a row makes it unhealthy.  A probe that runs
    into the timeout counts as a failure. *)
Example nginx_monitor_runs :
  let ok := {| Health.duration := 1; Health.exit_status := 0 |} in
  let ko := {| Health.duration := 1; Health.exit_status := 1 |} in
  let slow := {| Health.duration := 9; Health.exit_status := 0 |} in
  Health.state (Health.run (healthCheck nginx) [ko; ko; ok; ko; ko]) = Health.Healthy /\
  Health.state (Health.run (healthCheck nginx) [ko; ko; ok; ko; slow; ko]) = Health.Unhealthy /\
  Health.clock (Health.run (healthCheck nginx) [ok; slow]) = 66.
Proof. repeat split; reflexivity. Qed.

(** C7: the health check probes the container with [curl --fail
    http://localhost] (run by a shell, a failure of [curl] reported as status
    1), every 30 seconds, with a start period of 5 seconds and a timeout of 5
    seconds, and the container is unhealthy exactly when the last 3 probes
    in a row have failed. *)
Theorem nginx_health_check :
  command (healthCheck nginx) = ["CMD-SHELL"; "curl --fail http://localhost || exit 1"]%string /\
  (forall exec : list string -> Z,
      Health.probe_status exec (command (healthCheck nginx))
      = Some (if exec ["curl"; "--fail"; "http://localhost"]%string =? 0 then 0 else 1)) /\
  interval (healthCheck nginx) = 30 /\
  startPeriod (healthCheck nginx) = 5 /\
  timeout (healthCheck nginx) = 5 /\
  retries (healthCheck nginx) = 3 /\
  (forall ps : list Health.probe,
      Health.state (Health.run (healthCheck nginx) ps) = Health.Unhealthy
      <-> (3 <= Health.trailing_failures (healthCheck nginx) ps)%nat).
Proof.
  split; [reflexivity|]. split.
  - intros exec. cbn [command healthCheck nginx].
    change (Health.probe_status exec ["CMD-SHELL"; ?line]%string)
      with (fst <$> Shell.sh exec line ∅).
    rewrite sh_curl_or_exit.
    destruct (exec _ =? 0) eqn:Hz; [|reflexivity].
    apply Z.eqb_eq in Hz. cbn. by rewrite Hz.
  - repeat (split; [reflexivity|]).
    intros ps. destruct (nginx_monitor_invariant ps) as (_ & Hstreak & Hstate).
    rewrite Hstate, Hstreak. lia.
Qed.

(** ** The boot commands *)

Lemma append_nil_r (s : string) : s +:+ "" = s.
Proof. induction s as [|c s IH]; [done|]. change (String c (s +:+ "") = String c s). by rewrite IH. Qed.

Lemma append_assoc (s1 s2 s3 : string) : (s1 +:+ s2) +:+ s3 = s1 +:+ (s2 +:+ s3).
Proof.
  induction s1 as [|c s1 IH]; [done|].
  change (String c ((s1 +:+ s2) +:+ s3) = String c (s1 +:+ (s2 +:+ s3))). by rewrite IH.
Qed.

(** Inside quotes, characters other than the quote are taken as they are. *)
Lemma words_quoted (w rest acc : string) :
  Chars.all (fun c => negb (Ascii.eqb c "'")) w = true ->
  Shell.words true (Some acc) (w +:+ rest) = Shell.words true (Some (acc +:+ w)) rest.
Proof.
  revert acc. induction w as [|c w IH]; intros acc.
  - intros _. by rewrite append_nil_r.
  - intros [Hc Hw]%andb_prop. apply negb_true_iff in Hc.
    change (String c w +:+ rest) with (String c (w +:+ rest)).
    cbn [Shell.words]. rewrite Hc.
    unfold Shell.push. cbn [default from_option].
    rewrite (IH _ Hw), append_assoc. reflexivity.
Qed.

Example words_examples :
  Shell.words false None "echo  A='b c'd >> /tmp/x" = ["echo"; "A=b cd"; ">>"; "/tmp/x"]%string /\
  Shell.split_or ["a"; "b"; "||"; "exit"; "1"]%string = [["a"; "b"]; ["exit"; "1"]]%string.
Proof. split; reflexivity. Qed.

(** [echo words >> path] appends one line, the words, to the file. *)
Lemma sh_echo_append (exec : list string -> Z) (w path : string) (fs : Shell.files) :
  String.eqb w "||" = false -> String.eqb w ">>" = false ->
  String.eqb path "||" = false ->
  Shell.run_or exec (Shell.split_or ["echo"%string; w; ">>"%string; path]) fs
  = Some (0, Shell.append_line path w fs).
Proof.
  intros Hw1 Hw2 Hp.
  cbn [Shell.split_or]. change (String.eqb "echo" "||") with false.
  change (String.eqb ">>" "||") with false. rewrite Hw1, Hp.
  cbn [Shell.run_or]. unfold Shell.run_simple. cbn [Shell.redirect].
  change (String.eqb "echo" ">>") with false. rewrite Hw2.
  change (String.eqb ">>" ">>") with true. cbn iota beta.
  reflexivity.
Qed.

Lemma append_line_again (path l : string) (ls : list string) (fs : Shell.files) :
  Shell.append_line path l (<[path := ls]> fs) = <[path := ls ++ [l]]> fs.
Proof.
  unfold Shell.append_line.
  by rewrite lookup_insert_eq, insert_insert_eq.
Qed.

Lemma all_app (p : ascii -> bool) (a b : string) :
  Chars.all p (a +:+ b) = Chars.all p a && Chars.all p b.
Proof.
  induction a as [|c a IH]; [done|].
  change (String c a +:+ b) with (String c (a +:+ b)).
  cbn [Chars.all]. by rewrite IH, andb_assoc.
Qed.

(** A safe character is plain in the document and is no quote. *)
Lemma safe_char_inv (c : ascii) :
  Boot.safe_char c = true ->
  CloudInit.plain_char c = true /\ negb (Ascii.eqb c "'") = true.
Proof.
  unfold Boot.safe_char, CloudInit.plain_char. cbn [Chars.mem].
  intros [[Hlo _]%andb_prop Hmem]%andb_prop.
  apply negb_true_iff in Hmem.
  apply orb_false_elim in Hmem as [Hq Hmem].
  apply orb_false_elim in Hmem as [Hh Hmem].
  apply orb_false_elim in Hmem as [Hc _].
  apply N.leb_le in Hlo.
  assert (Hctrl : (Chars.code c <? 32)%N = false) by (apply N.ltb_ge; exact Hlo).
  rewrite Hctrl, Hq, Hh, Hc. by split.
Qed.

(** The characters the generator draws from are safe. *)
Lemma charset_safe (c : ascii) :
  Chars.mem c (random.charset clusterSuffixArgs) = true -> Boot.safe_char c = true.
Proof. intros H. cbn in H. mem_cases H. Qed.

(** Plain characters are read as they are, up to the rest of the scalar. *)
Lemma plain_scalar_app (w rest : string) :
  Chars.all CloudInit.plain_char w = true ->
  CloudInit.starts_with "#" rest = false ->
  CloudInit.plain_scalar (w +:+ rest) = String.app w <$> CloudInit.plain_scalar rest.
Proof.
  intros Hw Hrest. induction w as [|c w IH].
  - change ("" +:+ rest) with rest. by destruct (CloudInit.plain_scalar rest).
  - cbn [Chars.all] in Hw. apply andb_prop in Hw as [Hc Hw].
    assert (Hnext : CloudInit.starts_with "#" (w +:+ rest) = false).
    { destruct w as [|d w]; [exact Hrest|].
      cbn [Chars.all] in Hw. apply andb_prop in Hw as [Hd _].
      unfold CloudInit.plain_char in Hd.
      apply andb_prop in Hd as [_ Hd]. apply negb_true_iff in Hd. exact Hd. }
    unfold CloudInit.plain_char in Hc.
    apply andb_prop in Hc as [[Hctrl Hcolon]%andb_prop _].
    apply negb_true_iff in Hctrl. apply negb_true_iff in Hcolon.
    change (String c w +:+ rest) with (String c (w +:+ rest)).
    cbn [CloudInit.plain_scalar].
    rewrite Hctrl, Hcolon, Hnext, andb_false_r, (IH Hw). cbn [andb].
    by destruct (CloudInit.plain_scalar rest).
Qed.

(** The first extra item of the program is read as its command line. *)
Lemma entry_echo_cluster (clusterId : string) :
  Chars.all Boot.safe_char clusterId = true ->
  CloudInit.entry ("- echo ECS_CLUSTER='" +:+ clusterId +:+ "' >> /etc/ecs/ecs.config")
  = Some ("echo ECS_CLUSTER='" +:+ clusterId +:+ "' >> /etc/ecs/ecs.config").
Proof.
  intros Hid.
  assert (Hscalar :
    CloudInit.plain_scalar ("echo ECS_CLUSTER='" +:+ clusterId +:+ "' >> /etc/ecs/ecs.config")
    = Some ("echo ECS_CLUSTER='" +:+ clusterId +:+ "' >> /etc/ecs/ecs.config")).
  { rewrite <- append_assoc, plain_scalar_app; [| |reflexivity].
    - change (CloudInit.plain_scalar "' >> /etc/ecs/ecs.config")
        with (Some "' >> /etc/ecs/ecs.config"%string).
      cbn [fmap option_fmap option_map]. by rewrite append_assoc.
    - rewrite all_app. apply andb_true_intro. split; [reflexivity|].
      eapply all_impl; [|exact Hid]. intros c Hc. by apply safe_char_inv. }
  change (CloudInit.entry ("- echo ECS_CLUSTER='" +:+ ?x))
    with (match CloudInit.plain_scalar ("echo ECS_CLUSTER='" +:+ x) with
          | Some text => if CloudInit.reserved text then None else Some text
          | None => None
          end).
  rewrite Hscalar. reflexivity.
Qed.

(** The quotes of the first command keep the name in one word. *)
Lemma words_echo_cluster (clusterId : string) :
  Chars.all Boot.safe_char clusterId = true ->
  Shell.words false None ("echo ECS_CLUSTER='" +:+ clusterId +:+ "' >> /etc/ecs/ecs.config")
  = ["echo"; "ECS_CLUSTER=" +:+ clusterId; ">>"; ecs_config]%string.
Proof.
  intros Hid.
  assert (Hq : Chars.all (fun c => negb (Ascii.eqb c "'")) clusterId = true).
  { eapply all_impl; [|exact Hid]. intros c Hc. by apply safe_char_inv. }
  change (Shell.words false None _)
    with ("echo"%string ::
          Shell.words true (Some "ECS_CLUSTER="%string) (clusterId +:+ "' >> /etc/ecs/ecs.config")).
  rewrite (words_quoted _ _ _ Hq). reflexivity.
Qed.

Lemma bootcmd_app (exec : list string -> Z) (l1 l2 : list string) (fs : Shell.files) :
  CloudInit.bootcmd exec (l1 ++ l2) fs
  = match CloudInit.bootcmd exec l1 fs with
    | Some fs' => CloudInit.bootcmd exec l2 fs'
    | None => None
    end.
Proof.
  revert fs. induction l1 as [|l l1 IH]; intros fs; [done|].
  cbn [app CloudInit.bootcmd].
  destruct (CloudInit.entry l) as [cmd|]; [|done].
  destruct (Shell.sh exec cmd fs) as [[st fs']|]; [|done]. apply IH.
Qed.

(** The items of the library: whatever [mkswap] and [swapon] do, one line
    goes to the configuration file of the agent. *)
Lemma bootcmd_awsx (exec : list string -> Z) (fs : Shell.files) :
  CloudInit.bootcmd exec awsx.bootcmd fs
  = Some (<[ecs_config := Boot.read ecs_config fs ++ ["ECS_ENGINE_AUTH_TYPE=docker"%string]]> fs).
Proof. reflexivity. Qed.

(** The extra items of the program append their three lines. *)
Lemma bootcmd_extra (clusterId : string) (exec : list string -> Z) (fs : Shell.files) :
  Chars.all Boot.safe_char clusterId = true ->
  CloudInit.bootcmd exec (contents <$> extraBootcmdLines userData clusterId) fs
  = Some (<[ecs_config := Boot.read ecs_config fs ++
                          [ "ECS_CLUSTER=" +:+ clusterId;
                            "ECS_ENABLE_CONTAINER_METADATA=true";
                            "ECS_RESERVED_MEMORY=256" ]%string ]> fs).
Proof.
  intros Hid.
  cbn [userData extraBootcmdLines fmap list_fmap contents CloudInit.bootcmd].
  rewrite (entry_echo_cluster _ Hid). unfold Shell.sh at 1.
  rewrite (words_echo_cluster _ Hid), sh_echo_append by reflexivity.
  change (CloudInit.entry "- echo ECS_ENABLE_CONTAINER_METADATA=true >> /etc/ecs/ecs.config")
    with (Some "echo ECS_ENABLE_CONTAINER_METADATA=true >> /etc/ecs/ecs.config"%string).
  cbn iota beta. unfold Shell.sh at 1.
  change (Shell.words false None "echo ECS_ENABLE_CONTAINER_METADATA=true >> /etc/ecs/ecs.config")
    with ["echo"; "ECS_ENABLE_CONTAINER_METADATA=true"; ">>"; ecs_config]%string.
  rewrite sh_echo_append by reflexivity.
  change (CloudInit.entry "- echo ECS_RESERVED_MEMORY=256 >> /etc/ecs/ecs.config")
    with (Some "echo ECS_RESERVED_MEMORY=256 >> /etc/ecs/ecs.config"%string).
  cbn iota beta. unfold Shell.sh at 1.
  change (Shell.words false None "echo ECS_RESERVED_MEMORY=256 >> /etc/ecs/ecs.config")
    with ["echo"; "ECS_RESERVED_MEMORY=256"; ">>"; ecs_config]%string.
  rewrite sh_echo_append by reflexivity.
  f_equal. unfold Shell.append_line at 3, Boot.read.
  rewrite !append_line_again, <- !app_assoc. reflexivity.
Qed.

(** One boot of an instance: the line of the library, then the three of the
    program. *)
Lemma bootcmd_instance (clusterId : string) (exec : list string -> Z) (fs : Shell.files) :
  Chars.all Boot.safe_char clusterId = true ->
  CloudInit.bootcmd exec (awsx.instanceBootcmd (launchConfigurationArgs asg) clusterId) fs
  = Some (<[ecs_config := Boot.read ecs_config fs ++
                          [ "ECS_ENGINE_AUTH_TYPE=docker";
                            "ECS_CLUSTER=" +:+ clusterId;
                            "ECS_ENABLE_CONTAINER_METADATA=true";
                            "ECS_RESERVED_MEMORY=256" ]%string ]> fs).
Proof.
  intros Hid. unfold awsx.instanceBootcmd.
  cbn [asg launchConfigurationArgs lc_userData].
  rewrite bootcmd_app, bootcmd_awsx, (bootcmd_extra _ _ _ Hid).
  f_equal. unfold Boot.read at 1.
  rewrite lookup_insert_eq, insert_insert_eq. cbn [default from_option id].
  by rewrite <- app_assoc.
Qed.

Lemma generated_safe (s : string) :
  random.is_result clusterSuffixArgs s = true ->
  Chars.all Boot.safe_char (clusterIdentifier s) = true.
Proof.
  intros [_ Hchars]%is_result_inv.
  change (clusterIdentifier s) with ("dev-cluster-" +:+ s).
  rewrite all_app. apply andb_true_intro. split; [reflexivity|].
  eapply all_impl; [exact charset_safe | exact Hchars].
Qed.

(** C8, as the claim states it, fails: the boot commands of an instance are
    those of the library and then those of the program, and a boot appends
    four lines to [/etc/ecs/ecs.config], the first of them
    [ECS_ENGINE_AUTH_TYPE=docker]. *)
Lemma instance_boot_appends_four_lines :
  Boot.read ecs_config <$>
    CloudInit.bootcmd (fun _ => 0)
      (awsx.instanceBootcmd (launchConfigurationArgs asg) (clusterIdentifier "m4n0pz")) ∅
  = Some [ "ECS_ENGINE_AUTH_TYPE=docker";
           "ECS_CLUSTER=dev-cluster-m4n0pz";
           "ECS_ENABLE_CONTAINER_METADATA=true";
           "ECS_RESERVED_MEMORY=256" ]%string.
Proof.
  rewrite bootcmd_instance by reflexivity.
  cbn [fmap option_fmap option_map]. unfold Boot.read at 1.
  rewrite lookup_insert_eq. reflexivity.
Qed.

(** C8, amended: for every cluster identifier the program can generate, the
    program adds exactly three boot commands to the user data of each
    instance, and they append to [/etc/ecs/ecs.config], in this order,
    [ECS_CLUSTER] set to the generated cluster name,
    [ECS_ENABLE_CONTAINER_METADATA] set to [true] and [ECS_RESERVED_MEMORY]
    set to 256.  They run after the boot commands of the library, which
    append [ECS_ENGINE_AUTH_TYPE=docker] to the same file, so that a boot
    appends four lines in all. *)
Theorem instance_boot_appends_agent_lines
    (s : string) (exec : list string -> Z) (fs : Shell.files) :
  random.is_result clusterSuffixArgs s = true ->
  length (extraBootcmdLines (lc_userData (launchConfigurationArgs asg)) (clusterIdentifier s))
  = 3%nat /\
  CloudInit.bootcmd exec
    (contents <$> extraBootcmdLines (lc_userData (launchConfigurationArgs asg))
                    (clusterIdentifier s)) fs
  = Some (<[ecs_config :=
              Boot.read ecs_config fs ++
              [ "ECS_CLUSTER=" +:+ clusterIdentifier s;
                "ECS_ENABLE_CONTAINER_METADATA=true";
                "ECS_RESERVED_MEMORY=256" ]%string ]> fs) /\
  CloudInit.bootcmd exec
    (awsx.instanceBootcmd (launchConfigurationArgs asg) (clusterIdentifier s)) fs
  = Some (<[ecs_config :=
              Boot.read ecs_config fs ++
              [ "ECS_ENGINE_AUTH_TYPE=docker";
                "ECS_CLUSTER=" +:+ clusterIdentifier s;
                "ECS_ENABLE_CONTAINER_METADATA=true";
                "ECS_RESERVED_MEMORY=256" ]%string ]> fs).
Proof.
  intros Hs%generated_safe. split; [reflexivity|]. split.
  - exact (bootcmd_extra _ exec fs Hs).
  - exact (bootcmd_instance _ exec fs Hs).
Qed.

Lemma instance_boot_appends_agent_lines_witness :
  random.is_result clusterSuffixArgs "q9w8e7" = true /\
  CloudInit.bootcmd (fun _ => 1)
    (awsx.instanceBootcmd (launchConfigurationArgs asg) (clusterIdentifier "q9w8e7")) ∅
  = Some (<[ecs_config :=
              Boot.read ecs_config ∅ ++
              [ "ECS_ENGINE_AUTH_TYPE=docker";
                "ECS_CLUSTER=" +:+ clusterIdentifier "q9w8e7";
                "ECS_ENABLE_CONTAINER_METADATA=true";
                "ECS_RESERVED_MEMORY=256" ]%string ]> ∅).
Proof.
  split; [reflexivity|].
  apply (instance_boot_appends_agent_lines "q9w8e7" (fun _ => 1) ∅). reflexivity.
Defined.

(** ** The service *)

(** C9: the service asks for one task, has exactly one placement strategy,
    [spread] over [instanceId], and exactly one capacity provider strategy,
    with base 1 and weight 1, on the capacity provider the program creates
    (the one of its cluster, bound to the scaling group). *)
Theorem service_declaration (s : string) :
  desiredCount (service s) = 1 /\
  orderedPlacementStrategies (service s)
  = [ {| ps_type := "spread"; field := "instanceId" |} ] /\
  capacityProviderStrategies (service s)
  = [ {| cps_capacityProvider := capacityProvider_name capacityProvider;
         base := 1; weight := 1 |} ] /\
  capacityProviders (svc_cluster (service s)) = [capacityProvider_name capacityProvider] /\
  autoScalingGroupArn capacityProvider = asg_group_arn asg.
Proof.
  cbn [service desiredCount orderedPlacementStrategies capacityProviderStrategies
       svc_cluster cluster capacityProviders].
  repeat split.
Qed.

(** ** The scaling policy *)

Lemma Qceiling_le_iff (x : Q) (n : Z) : Qceiling x <= n <-> Qle x (inject_Z n).
Proof.
  split.
  - intros H. eapply Qle_trans; [apply Qle_ceiling|]. by rewrite <- Zle_Qle.
  - intros H. rewrite <- (Qceiling_Z n). by apply Qceiling_resp_le.
Qed.

(** What tracking 80 requests for a group of one or two instances. *)
Lemma tracking_80_request (size : Z) (m : Q) (n : Z) :
  size = 1 \/ size = 2 ->
  AutoScaling.target_tracking 80 m size <= n
  <-> Qle (inject_Z size * m) (inject_Z (80 * n)).
Proof.
  intros Hsize. unfold AutoScaling.target_tracking. rewrite Qceiling_le_iff.
  rewrite inject_Z_mult. unfold Qdiv.
  change (/ inject_Z 80)%Q with (1 # 80)%Q. change (inject_Z 80) with (80 # 1)%Q.
  destruct Hsize as [-> | ->].
  - change (inject_Z 1) with (1 # 1)%Q. split; intros H; lra.
  - change (inject_Z 2) with (2 # 1)%Q. split; intros H; lra.
Qed.

(** C10, as the claim states it, fails: with two instances and an average of
    79 percent, which does not exceed 80, tracking asks for
    [ceil (2 * 79 / 80) = 2] instances and the capacity is not decreased. *)
Lemma tracking_keeps_two_at_79 :
  Qle (79 # 1) (inject_Z 80) /\
  AutoScaling.scale (AutoScaling.target_tracking 80) asg 2 (79 # 1) = 2.
Proof. split; [unfold Qle; cbn; lia | reflexivity]. Qed.

(** C10, amended: the scaling group has exactly one scaling policy, which
    tracks the average memory reservation of the cluster, in percent, with
    target 80.  Capacity is increased when the average exceeds 80, up to the
    configured maximum, and is never increased otherwise; it is decreased
    only when the average is low enough for one instance less to stay
    within the target, that is when [size * average <= 80 * (size - 1)]
    (with two instances: at 40 percent or less), and never below the
    configured minimum. *)
Theorem memory_reservation_target_tracking (s : string) :
  exists p : TargetTrackingPolicy,
    policiesOf asg (scalingPolicies s) = [p] /\
    metrics.metric_name (metric p) = "MemoryReservation"%string /\
    metrics.metric_cluster (metric p) = cluster s /\
    metrics.statistic (metric p) = "Average"%string /\
    metrics.unit (metric p) = "Percent"%string /\
    targetValue p = 80 /\
    forall (m : Q) (size : Z),
      minSize (templateParameters asg) <= size <= maxSize (templateParameters asg) ->
      (Qlt (inject_Z 80) m ->
         size <= AutoScaling.scale (AutoScaling.target_tracking (targetValue p)) asg size m /\
         (size < maxSize (templateParameters asg) ->
          size < AutoScaling.scale (AutoScaling.target_tracking (targetValue p)) asg size m)) /\
      (Qle m (inject_Z 80) ->
         AutoScaling.scale (AutoScaling.target_tracking (targetValue p)) asg size m <= size) /\
      (AutoScaling.scale (AutoScaling.target_tracking (targetValue p)) asg size m < size
       <-> minSize (templateParameters asg) < size /\
           Qle (inject_Z size * m) (inject_Z (targetValue p * (size - 1)))) /\
      minSize (templateParameters asg)
      <= AutoScaling.scale (AutoScaling.target_tracking (targetValue p)) asg size m
      <= maxSize (templateParameters asg).
Proof.
  eexists. split; [reflexivity|]. repeat (split; [reflexivity|]).
  cbn [targetValue scaleToTrackMetric].
  intros m size. cbn [asg templateParameters minSize maxSize]. intros Hsize.
  assert (Hcases : size = 1 \/ size = 2) by lia.
  pose proof (tracking_80_request size m 1 Hcases) as H1.
  pose proof (tracking_80_request size m 2 Hcases) as H2.
  unfold AutoScaling.scale, AutoScaling.clamp.
  cbn [asg templateParameters minSize maxSize].
  set (r := AutoScaling.target_tracking 80 m size) in *.
  change (inject_Z (80 * 1)) with (80 # 1)%Q in H1.
  change (inject_Z (80 * 2)) with (160 # 1)%Q in H2.
  change (inject_Z 80) with (80 # 1)%Q.
  destruct Hcases as [-> | ->].
  - change (inject_Z 1) with (1 # 1)%Q in *. change (inject_Z (80 * (1 - 1))) with (0 # 1)%Q.
    split; [|split; [|split]].
    + intros Hm. assert (~ r <= 1) by (rewrite H1; lra). lia.
    + intros Hm. assert (r <= 1) by (rewrite H1; lra). lia.
    + split; [lia | intros [? _]; lia].
    + lia.
  - change (inject_Z 2) with (2 # 1)%Q in *. change (inject_Z (80 * (2 - 1))) with (80 # 1)%Q.
    split; [|split; [|split]].
    + intros Hm. assert (~ r <= 1) by (rewrite H1; lra). lia.
    + intros Hm. lia.
    + rewrite <- H1. split; [intros Hlt; split; lia | intros [_ Hr]; lia].
    + lia.
Qed.

(** ** The rollout *)

Lemma service_limits (s : string) :
  Scheduler.upper_limit (service s) = 1 /\ Scheduler.lower_limit (service s) = 0.
Proof. split; reflexivity. Qed.

(** The scheduler never holds more tasks than the upper limit. *)
Lemma reachable_upper_limit (svc : CapacityProviderService) (fleet : list nat)
    (ts : list Scheduler.task) :
  0 <= Scheduler.upper_limit svc ->
  Scheduler.reachable svc fleet ts ->
  Z.of_nat (length ts) <= Scheduler.upper_limit svc.
Proof.
  intros Hlim. unfold Scheduler.reachable. revert ts.
  apply (rtc_ind_r (fun ts => Z.of_nat (length ts) <= Scheduler.upper_limit svc)); [cbn; lia|].
  intros ts ts' _ Hstep IH.
  destruct Hstep as [t ts Hlt Hfleet | ts1 t ts2 Hlow].
  - cbn [length]. lia.
  - rewrite length_app in *. cbn [length] in IH. lia.
Qed.

(** A step that adds a task is a start. *)
Lemma step_grows_inv (svc : CapacityProviderService) (fleet : list nat)
    (ts ts' : list Scheduler.task) :
  Scheduler.step svc fleet ts ts' ->
  (length ts < length ts')%nat ->
  Z.of_nat (length ts) < Scheduler.upper_limit svc.
Proof.
  intros [t ts0 Hlt Hfleet | ts1 t ts2 Hlow] Hgrow; [exact Hlt|].
  rewrite !length_app in Hgrow. cbn [length] in Hgrow. lia.
Qed.

(** A rollout can happen: the old task is stopped, then the new one starts. *)
Lemma rollout_replaces_task (s : string) (h : nat) :
  Scheduler.reachable (service s) [h]
    [ {| Scheduler.host := h; Scheduler.revision := 2 |} ].
Proof.
  destruct (service_limits s) as [Hup Hlow].
  unfold Scheduler.reachable.
  eapply rtc_l.
  { apply (Scheduler.step_start _ _ {| Scheduler.host := h; Scheduler.revision := 1 |} []).
    - rewrite Hup. cbn [length]. lia.
    - cbn [Scheduler.host]. set_solver. }
  eapply rtc_l.
  { apply (Scheduler.step_stop _ _ [] {| Scheduler.host := h; Scheduler.revision := 1 |} []).
    rewrite Hlow. cbn [app length]. lia. }
  apply rtc_once. apply Scheduler.step_start.
  - rewrite Hup. cbn [app length]. lia.
  - cbn [Scheduler.host]. set_solver.
Qed.

(** C1: the task definition uses host networking, and the deployment
    configuration of the service (maximum 100 percent, minimum healthy 0
    percent, desired count 1) allows [floor (100 / 100 * 1) = 1] task at a
    time, which is no more than the hosts of a scaling group of minimum size
    1; so at no point of a rollout are two tasks placed on one host, and a
    task is started only when no other is left. *)
Theorem one_task_per_host (s : string) :
  networkMode (svc_taskDefinition (service s)) = "host"%string /\
  deploymentMaximumPercent (service s) = 100 /\
  deploymentMinimumHealthyPercent (service s) = 0 /\
  desiredCount (service s) = 1 /\
  Scheduler.upper_limit (service s) = 1 /\
  (forall hosts : Z,
      minSize (templateParameters asg) <= hosts -> Scheduler.upper_limit (service s) <= hosts) /\
  (forall (fleet : list nat) (ts : list Scheduler.task),
      Scheduler.reachable (service s) fleet ts ->
      forall h : nat, (length (Scheduler.tasks_on h ts) <= 1)%nat) /\
  (forall (fleet : list nat) (ts ts' : list Scheduler.task),
      Scheduler.step (service s) fleet ts ts' ->
      (length ts < length ts')%nat -> ts = []).
Proof.
  destruct (service_limits s) as [Hup Hlow].
  repeat (split; [reflexivity|]).
  split; [|split].
  - intros hosts Hmin. rewrite Hup. cbn [asg templateParameters minSize] in Hmin. lia.
  - intros fleet ts Hreach h.
    apply reachable_upper_limit in Hreach; [|rewrite Hup; lia].
    rewrite Hup in Hreach.
    pose proof (length_filter (fun t => Scheduler.host t = h) ts) as Hle.
    unfold Scheduler.tasks_on. lia.
  - intros fleet ts ts' Hstep Hgrow.
    pose proof (step_grows_inv _ _ _ _ Hstep Hgrow) as Hlt.
    rewrite Hup in Hlt. destruct ts; [reflexivity | cbn [length] in Hlt; lia].
Qed.


(** * Further properties of the program *)

(** ** The boot commands, for any cluster name *)



(** Names outside the safe characters are not covered: a [#] after a blank
    cuts the item, and a [:] before a blank makes it no command at all. *)
Example entry_unsafe_names :
  CloudInit.entry "- echo ECS_CLUSTER='a #b' >> /etc/ecs/ecs.config"
  = Some "echo ECS_CLUSTER='a"%string /\
  CloudInit.entry "- echo ECS_CLUSTER='a: b' >> /etc/ecs/ecs.config" = None.
Proof. split; reflexivity. Qed.

(** ** Reboots *)







(** ** Open ports and published ports *)

(** X3: the traffic the security group of the instances lets in is exactly
    the TCP traffic to a host port that a container of the task definition
    publishes: no published port is closed, and no other port is open. *)
Theorem ingress_is_published_ports (p : Net.Packet) :
  Net.allows (ingress instancesSecurityGroup) p = true
  <-> Net.proto p = Net.TCP /\
      exists (n : string) (c : Container) (m : PortMapping),
        containers taskDefinition !! n = Some c /\
        m ∈ portMappings c /\
        hostPort m = Net.port p.
Proof.
  cbn [ingress instancesSecurityGroup].
  rewrite allows_single, tcp_rule_allows. split.
  - intros [Htcp Hport]. split; [exact Htcp|].
    exists "nginx"%string, nginx, {| hostPort := 80; containerPort := 80 |}.
    split; [apply lookup_singleton_eq|].
    split; [by apply list_elem_of_singleton | cbn [hostPort]; lia].
  - intros [Htcp (n & c & m & Hc & Hm & Hport)]. split; [exact Htcp|].
    cbn [containers taskDefinition] in Hc.
    apply lookup_singleton_Some in Hc as [_ <-].
    cbn [portMappings nginx] in Hm.
    apply list_elem_of_singleton in Hm as ->.
    cbn [hostPort] in Hport. lia.
Qed.

(** ** How long the monitor takes *)

(** Every probe takes the monitor between 30 and 35 seconds further. *)
Lemma nginx_step_clock (m : Health.monitor) (p : Health.probe) :
  30 <= Health.clock (Health.step (healthCheck nginx) m p) - Health.clock m <= 35.
Proof.
  unfold Health.step.
  change (interval (healthCheck nginx)) with 30. change (timeout (healthCheck nginx)) with 5.
  repeat match goal with |- context [if ?b then _ else _] => destruct b end;
    cbn [Health.clock]; lia.
Qed.

Lemma nginx_clock_length (ps : list Health.probe) :
  30 * Z.of_nat (length ps) <= Health.clock (Health.run (healthCheck nginx) ps).
Proof.
  induction ps as [|p ps IH] using rev_ind; [cbn; lia|].
  rewrite run_snoc, length_app. cbn [length].
  pose proof (nginx_step_clock (Health.run (healthCheck nginx) ps) p). lia.
Qed.

Lemma leading_failures_length (hc : HealthCheck) (ps : list Health.probe) :
  (Health.leading_failures hc ps <= length ps)%nat.
Proof.
  induction ps as [|p ps IH]; [done|]. cbn [Health.leading_failures length].
  destruct (Health.failed hc p); lia.
Qed.

(** X4: whatever happened before, three failed probes in a row leave the
    container unhealthy, between 90 and 105 seconds after the probe before
    them ended. *)
Theorem three_failures_within_105_seconds
    (ps : list Health.probe) (f1 f2 f3 : Health.probe) :
  Health.failed (healthCheck nginx) f1 = true ->
  Health.failed (healthCheck nginx) f2 = true ->
  Health.failed (healthCheck nginx) f3 = true ->
  Health.state (Health.run (healthCheck nginx) (ps ++ [f1; f2; f3])) = Health.Unhealthy /\
  90 <= Health.clock (Health.run (healthCheck nginx) (ps ++ [f1; f2; f3]))
        - Health.clock (Health.run (healthCheck nginx) ps) <= 105.
Proof.
  intros H1 H2 H3. split.
  - destruct (nginx_monitor_invariant (ps ++ [f1; f2; f3])) as (_ & Hstreak & Hstate).
    apply Hstate. rewrite Hstreak.
    change (ps ++ [f1; f2; f3]) with (ps ++ [f1] ++ [f2] ++ [f3]).
    rewrite !app_assoc, !trailing_snoc, H1, H2, H3. lia.
  - change (ps ++ [f1; f2; f3]) with (ps ++ [f1] ++ [f2] ++ [f3]).
    rewrite !app_assoc, !run_snoc.
    set (m0 := Health.run (healthCheck nginx) ps).
    pose proof (nginx_step_clock m0 f1).
    pose proof (nginx_step_clock (Health.step (healthCheck nginx) m0 f1) f2).
    pose proof (nginx_step_clock
                  (Health.step (healthCheck nginx) (Health.step (healthCheck nginx) m0 f1) f2) f3).
    lia.
Qed.

Lemma three_failures_within_105_seconds_witness :
  Health.state
    (Health.run (healthCheck nginx)
       ([ {| Health.duration := 1; Health.exit_status := 0 |} ] ++
        [ {| Health.duration := 1; Health.exit_status := 22 |};
          {| Health.duration := 8; Health.exit_status := 0 |};
          {| Health.duration := 0; Health.exit_status := 7 |} ])) = Health.Unhealthy /\
  90 <= Health.clock
          (Health.run (healthCheck nginx)
             ([ {| Health.duration := 1; Health.exit_status := 0 |} ] ++
              [ {| Health.duration := 1; Health.exit_status := 22 |};
                {| Health.duration := 8; Health.exit_status := 0 |};
                {| Health.duration := 0; Health.exit_status := 7 |} ]))
        - Health.clock
            (Health.run (healthCheck nginx)
               [ {| Health.duration := 1; Health.exit_status := 0 |} ]) <= 105.
Proof.
  apply (three_failures_within_105_seconds
           [ {| Health.duration := 1; Health.exit_status := 0 |} ]
           {| Health.duration := 1; Health.exit_status := 22 |}
           {| Health.duration := 8; Health.exit_status := 0 |}
           {| Health.duration := 0; Health.exit_status := 7 |}); reflexivity.
Defined.

(** X5: a container is never unhealthy in the first 90 seconds after its
    start. *)
Theorem unhealthy_not_before_90_seconds (ps : list Health.probe) :
  Health.state (Health.run (healthCheck nginx) ps) = Health.Unhealthy ->
  90 <= Health.clock (Health.run (healthCheck nginx) ps).
Proof.
  intros Hu.
  destruct (nginx_monitor_invariant ps) as (_ & Hstreak & Hstate).
  apply Hstate in Hu. rewrite Hstreak in Hu.
  pose proof (leading_failures_length (healthCheck nginx) (rev ps)) as Hlen.
  rewrite length_rev in Hlen. unfold Health.trailing_failures in Hu.
  pose proof (nginx_clock_length ps). lia.
Qed.

Lemma unhealthy_not_before_90_seconds_witness :
  90 <= Health.clock
          (Health.run (healthCheck nginx)
             [ {| Health.duration := 0; Health.exit_status := 1 |};
               {| Health.duration := 0; Health.exit_status := 1 |};
               {| Health.duration := 0; Health.exit_status := 1 |} ]).
Proof.
  apply (unhealthy_not_before_90_seconds
           [ {| Health.duration := 0; Health.exit_status := 1 |};
             {| Health.duration := 0; Health.exit_status := 1 |};
             {| Health.duration := 0; Health.exit_status := 1 |} ]).
  reflexivity.
Defined.

(** ** A rollout is never stuck *)

(** With a lower limit of 0 every task may be stopped. *)
Lemma stop_all (svc : CapacityProviderService) (fleet : list nat) (ts : list Scheduler.task) :
  Scheduler.lower_limit svc <= 0 ->
  rtc (Scheduler.step svc fleet) ts [].
Proof.
  intros Hlow. induction ts as [|t ts IH]; [apply rtc_refl|].
  eapply rtc_l; [|exact IH].
  apply (Scheduler.step_stop svc fleet [] t ts). cbn [app]. lia.
Qed.

(** X6: from any set of running tasks the scheduler can reach the state in
    which a given new task, on a host of the fleet, is the only one: with a
    minimum healthy percent of 0 every old task may be stopped, and then the
    new one may start. *)
Theorem rollout_can_complete
    (s : string) (fleet : list nat) (ts : list Scheduler.task) (t : Scheduler.task) :
  Scheduler.host t ∈ fleet ->
  rtc (Scheduler.step (service s) fleet) ts [t].
Proof.
  intros Hhost. destruct (service_limits s) as [Hup Hlow].
  eapply rtc_r; [apply stop_all; lia|].
  apply Scheduler.step_start; [|exact Hhost].
  rewrite Hup. cbn [length]. lia.
Qed.

Lemma rollout_can_complete_witness :
  rtc (Scheduler.step (service "b3c8d0") [7%nat; 9%nat])
    [ {| Scheduler.host := 7; Scheduler.revision := 1 |} ]
    [ {| Scheduler.host := 9; Scheduler.revision := 2 |} ].
Proof.
  apply (rollout_can_complete "b3c8d0" [7%nat; 9%nat]
           [ {| Scheduler.host := 7; Scheduler.revision := 1 |} ]
           {| Scheduler.host := 9; Scheduler.revision := 2 |}).
  cbn [Scheduler.host]. apply list_elem_of_further, list_elem_of_here.
Defined.

(** ** The probe and the image *)

Lemma Dockerfile_adds_curl : Docker.added_packages Dockerfile = ["curl"%string].
Proof. reflexivity. Qed.

(** X7: the health probe runs no program but one the [Dockerfile] adds to
    the image: its status is the same under any two behaviours of external
    commands that agree on the programs the build adds. *)
Theorem probe_runs_added_programs_only (exec exec' : list string -> Z) :
  (forall (prog : string) (args : list string),
      prog ∈ Docker.added_packages Dockerfile -> exec (prog :: args) = exec' (prog :: args)) ->
  Health.probe_status exec (command (healthCheck nginx))
  = Health.probe_status exec' (command (healthCheck nginx)).
Proof.
  intros Hagree. cbn [command healthCheck nginx].
  change (Health.probe_status ?e ["CMD-SHELL"; ?line]%string)
    with (fst <$> Shell.sh e line ∅).
  rewrite !sh_curl_or_exit, (Hagree "curl"%string); [reflexivity|].
  rewrite Dockerfile_adds_curl. by apply list_elem_of_singleton.
Qed.

Lemma probe_runs_added_programs_only_witness :
  Health.probe_status
    (fun argv => match argv with
                 | prog :: _ => if String.eqb prog "curl" then 0 else 127
                 | [] => 127
                 end) (command (healthCheck nginx))
  = Health.probe_status
      (fun argv => match argv with
                   | prog :: _ => if String.eqb prog "curl" then 0 else 1
                   | [] => 2
                   end) (command (healthCheck nginx)).
Proof.
  apply probe_runs_added_programs_only.
  intros prog args Hprog. rewrite Dockerfile_adds_curl in Hprog.
  apply list_elem_of_singleton in Hprog. subst prog. reflexivity.
Defined.

(** ** Cluster names and suffixes *)

(** A lowercase letter or a digit is a character the generator may draw. *)
Lemma lower_alnum_charset (c : ascii) :
  Pattern.atom_matches (Pattern.Class [("a"%char, "z"%char); ("0"%char, "9"%char)]) c = true ->
  Chars.mem c (random.charset clusterSuffixArgs) = true.
Proof.
  destruct c as [[] [] [] [] [] [] [] []]; vm_compute; intros H;
    first [reflexivity | discriminate H].
Qed.

Lemma matches_literal_inv (lit : string) (l : list Pattern.atom) (s : string) :
  Pattern.matches_atoms (Pattern.expand (Pattern.literal lit) ++ l) s = true ->
  exists rest : string, s = lit +:+ rest /\ Pattern.matches_atoms l rest = true.
Proof.
  revert s. induction lit as [|c lit IH]; intros s H.
  - exists s. by split.
  - destruct s as [|d s]; [discriminate H|].
    cbn in H. apply andb_prop in H as [Hc Hs].
    apply Ascii.eqb_eq in Hc as ->.
    destruct (IH s Hs) as (rest & -> & Hrest).
    exists rest. by split.
Qed.

Lemma matches_repeat_inv (a : Pattern.atom) (n : nat) (s : string) :
  Pattern.matches_atoms (repeat a n) s = true ->
  String.length s = n /\ Chars.all (Pattern.atom_matches a) s = true.
Proof.
  revert s. induction n as [|n IH]; intros [|c s] H; try discriminate H.
  - by split.
  - cbn in H. apply andb_prop in H as [Hc Hs].
    destruct (IH s Hs) as [Hlen Hall]. split; [cbn; by rewrite Hlen|].
    cbn. by rewrite Hc.
Qed.

(** X8: every name of the form [dev-cluster-[a-z0-9]{6}] is the cluster
    name of one suffix the generator can produce, and of no other string:
    two deployments get the same cluster name only if they draw the same
    suffix. *)
Theorem cluster_name_determines_suffix (n : string) :
  Pattern.matches cluster_name_pattern n = true ->
  exists s : string,
    random.is_result clusterSuffixArgs s = true /\
    clusterIdentifier s = n /\
    forall s' : string, clusterIdentifier s' = n -> s' = s.
Proof.
  unfold Pattern.matches, cluster_name_pattern. rewrite expand_app.
  intros (s & -> & Hs)%matches_literal_inv.
  change (Pattern.expand [(?a, 6%nat)]) with (repeat a 6 ++ []) in Hs.
  rewrite app_nil_r in Hs. apply matches_repeat_inv in Hs as [Hlen Hall].
  exists s. split; [|split].
  - unfold random.is_result. apply andb_true_intro. split.
    + by apply Nat.eqb_eq.
    + eapply all_impl; [exact lower_alnum_charset | exact Hall].
  - reflexivity.
  - intros s' Heq. change (clusterIdentifier s') with ("dev-cluster-" +:+ s') in Heq.
    by apply (inj (String.app "dev-cluster-")) in Heq.
Qed.

Lemma cluster_name_determines_suffix_witness :
  exists s : string,
    random.is_result clusterSuffixArgs s = true /\
    clusterIdentifier s = "dev-cluster-0a1b2c"%string /\
    forall s' : string, clusterIdentifier s' = "dev-cluster-0a1b2c"%string -> s' = s.
Proof.
  apply (cluster_name_determines_suffix "dev-cluster-0a1b2c"). reflexivity.
Defined.
